(** * The consensus node of src/nodes/node.ts

    A shallow embedding of the function [node] of [src/nodes/node.ts] and
    the properties of its route handlers.

    The function builds one express application per node.  Its arguments
    are captured by the closures of the handlers, it owns two mutable
    variables ([state] and [consensusTimer]) and it registers five routes:
    [/status], [/message], [/start], [/stop] and [/getState].  Node.js
    runs every handler and every timer callback to completion before the
    next one begins (the two [async] handlers contain no [await]), so the
    node is a state machine whose events are the five requests and the
    firing of the pending timer. *)

From Stdlib Require Import ZArith List String Lia.
Import ListNotations.
Open Scope string_scope.
Open Scope Z_scope.

(** ** Data *)

(** Modelled from the spec: the type [Value] is imported from [../types],
    which is not among the sources.  The node stores the literal [1] in a
    field of that type, the spec speaks of a binary choice and of a value
    a node may lack; the three constructors stand for the TypeScript
    literals [0], [1] and ["?"]. *)
Inductive Value : Type := V0 | V1 | VUnknown.

(** Modelled from the spec: [NodeState], also of [../types]; its four
    fields are the ones the object literal of node.ts:21-26 initialises
    and [/getState] returns.  [null] is [None]. *)
Record NodeState : Type := mkState {
  killed : bool;
  x : option Value;
  decided : option bool;
  k : option Z
}.

(** The body of a [/message] request, as [express.json()] hands it over. *)
#[warnings="-register-all"]
Inductive Json : Type :=
| JNull
| JBool (b : bool)
| JNum (z : Z)
| JStr (s : string)
| JArr (l : list Json)
| JObj (l : list (string * Json)).

(** The arguments of [node] that the handlers read.  [nodesAreReady] and
    [setNodeIsReady] are only used by the [listen] callback. *)
Record NodeArgs : Type := mkArgs {
  nodeId : Z;
  N : Z;
  F : Z;
  initialValue : Value;
  isFaulty : bool
}.

(** What [consensusTimer] holds when it is not [null]: the handle of a
    [setTimeout] (fires once) or of a [setInterval] (fires until cleared).
    A new handle is only stored while the variable is [null], and the
    variable is reset whenever the handle dies, so the variable is the
    whole timer queue of the node. *)
Inductive Timer : Type := Timeout | Interval.

(** The two mutable variables of the closure. *)
Record Node : Type := mkNode {
  state : NodeState;
  consensusTimer : option Timer
}.

(** The lines written by [console.log]. *)
Inductive LogLine : Type :=
| LogReceived (id : Z) (msg : Json)
| LogStarting (id : Z)
| LogReached (id : Z) (v : option Value) (round : option Z)
| LogStopped (id : Z).

(** An HTTP response: [res.send] and [res.sendStatus] send text,
    [res.json(state)] sends the state. *)
Inductive Body : Type :=
| Text (s : string)
| StateJson (s : NodeState).

Record Reply : Type := mkReply {
  code : Z;
  body : Body
}.

(** A handler leaves the two variables in some state, answers the
    request and may have logged. *)
Record Outcome : Type := mkOutcome {
  node : Node;
  reply : Reply;
  logs : list LogLine
}.

(** The requests a node serves, and the firing of its timer. *)
Inductive Event : Type :=
| GetStatus
| PostMessage (msg : Json)
| GetStart
| GetStop
| GetState
| TimerFires.

(** ** JavaScript numbers

    [state.k] is a JavaScript number.  It only ever holds [2], [0] or the
    result of [++] on a value it held.  On the integers from [0] to
    [2^53] the addition of [1] is exact below [2^53], and at [2^53] the
    sum rounds back to [2^53].  [js_incr] is [++] on that range, which
    [k] never leaves. *)
Definition two53 : Z := 2 ^ 53.

Definition js_incr (n : Z) : Z := if n <? two53 then n + 1 else n.

(** [state.k!++]: the [!] is erased by the compiler, and [null] counts as
    [0]. *)
Definition incr_k (o : option Z) : option Z :=
  match o with
  | Some n => Some (js_incr n)
  | None => Some 1
  end.

Definition set_k (s : NodeState) (v : option Z) : NodeState :=
  {| killed := killed s; x := x s; decided := decided s; k := v |}.

Section Handlers.

Variable a : NodeArgs.

(** node.ts:21-29 *)
Definition init : Node :=
  {| state := {| killed := false;
                 x := if isFaulty a then None else Some (initialValue a);
                 decided := None;
                 k := None |};
     consensusTimer := None |}.

(** node.ts:32-38 *)
Definition status (n : Node) : Outcome :=
  if isFaulty a
  then mkOutcome n (mkReply 500 (Text "faulty")) []
  else mkOutcome n (mkReply 200 (Text "live")) [].

(** node.ts:41-46 *)
Definition message (msg : Json) (n : Node) : Outcome :=
  mkOutcome n (mkReply 200 (Text "OK")) [LogReceived (nodeId a) msg].

(** node.ts:54-83 *)
Definition start (n : Node) : Outcome :=
  match consensusTimer n with
  | Some _ =>
      mkOutcome n (mkReply 400 (Text "Consensus algorithm already running.")) []
  | None =>
      if isFaulty a
      then mkOutcome n (mkReply 200 (Text "Faulty node: consensus not started."))
                     [LogStarting (nodeId a)]
      else if F a <? 5
      then mkOutcome {| state := state n; consensusTimer := Some Timeout |}
                     (mkReply 200 (Text "Consensus started"))
                     [LogStarting (nodeId a)]
      else mkOutcome {| state := set_k (state n) (Some 0);
                        consensusTimer := Some Interval |}
                     (mkReply 200 (Text "Consensus started"))
                     [LogStarting (nodeId a)]
  end.

(** node.ts:86-96 *)
Definition stop (n : Node) : Outcome :=
  match consensusTimer n with
  | Some _ =>
      mkOutcome {| state := state n; consensusTimer := None |}
                (mkReply 200 (Text "Consensus stopped"))
                [LogStopped (nodeId a)]
  | None =>
      mkOutcome n (mkReply 200 (Text "Consensus algorithm not running.")) []
  end.

(** node.ts:99-101 *)
Definition getState (n : Node) : Outcome :=
  mkOutcome n (mkReply 200 (StateJson (state n))) [].

(** The callback given to [setTimeout], node.ts:66-72. *)
Definition onTimeout (n : Node) : Node * list LogLine :=
  ({| state := {| killed := killed (state n);
                  x := Some V1;
                  decided := Some true;
                  k := Some 2 |};
      consensusTimer := None |},
   [LogReached (nodeId a) (Some V1) (Some 2)]).

(** The callback given to [setInterval], node.ts:77-80. *)
Definition onInterval (n : Node) : Node * list LogLine :=
  ({| state := set_k (state n) (incr_k (k (state n)));
      consensusTimer := consensusTimer n |},
   []).

(** The pending timer fires.  With no timer pending nothing runs. *)
Definition fire (n : Node) : Node * list LogLine :=
  match consensusTimer n with
  | Some Timeout => onTimeout n
  | Some Interval => onInterval n
  | None => (n, [])
  end.

Definition step (n : Node) (e : Event) : Node :=
  match e with
  | GetStatus => node (status n)
  | PostMessage msg => node (message msg n)
  | GetStart => node (start n)
  | GetStop => node (stop n)
  | GetState => node (getState n)
  | TimerFires => fst (fire n)
  end.

(** The node after a sequence of events, from its construction. *)
Definition run (tr : list Event) : Node := fold_left step tr init.

(** The answer the handler of a route gives to a request that reaches it
    (node.ts:32, 41, 54, 86, 99).  The JSON middleware of node.ts:16-17
    runs before the routes and answers a request whose body it cannot
    read itself; it is not modelled.  The firing of a timer is no request
    and gets no answer. *)
Definition respond (n : Node) (e : Event) : option Reply :=
  match e with
  | GetStatus => Some (reply (status n))
  | PostMessage msg => Some (reply (message msg n))
  | GetStart => Some (reply (start n))
  | GetStop => Some (reply (stop n))
  | GetState => Some (reply (getState n))
  | TimerFires => None
  end.

(** The states of [state] the node can be in: the initial one, the one
    the timeout callback writes, and the ones with a counted round. *)
Definition decidedState : NodeState :=
  {| killed := false; x := Some V1; decided := Some true; k := Some 2 |}.

Inductive Inv : Node -> Prop :=
| InvFaulty :
    isFaulty a = true -> Inv init
| InvFast t :
    isFaulty a = false -> F a < 5 -> t <> Some Interval ->
    Inv {| state := state init; consensusTimer := t |}
| InvDecided t :
    isFaulty a = false -> F a < 5 -> t <> Some Interval ->
    Inv {| state := decidedState; consensusTimer := t |}
| InvIdle :
    isFaulty a = false -> 5 <= F a -> Inv init
| InvCounting r t :
    isFaulty a = false -> 5 <= F a -> 0 <= r <= two53 -> t <> Some Timeout ->
    Inv {| state := set_k (state init) (Some r); consensusTimer := t |}.

End Handlers.

(** ** Concrete nodes *)

Definition healthy (n f : Z) (v : Value) : NodeArgs :=
  {| nodeId := 0; N := n; F := f; initialValue := v; isFaulty := false |}.

Definition faulty (n f : Z) (v : Value) : NodeArgs :=
  {| nodeId := 1; N := n; F := f; initialValue := v; isFaulty := true |}.

(** Runs a handler on a node whose timer is known, using the facts
    about [isFaulty] and the threshold that are at hand. *)
Ltac handler Hf HFb :=
  unfold step, status, message, start, stop, getState, fire, onTimeout,
    onInterval;
  cbn [node fst consensusTimer state];
  rewrite ?Hf, ?HFb;
  cbn [node fst consensusTimer state].

Ltac absurd_timer Ht := contradiction Ht; reflexivity.

(** ** Sample runs *)

Example run_fast :
  run (healthy 4 1 V0) [GetStart; TimerFires] =
  {| state := decidedState; consensusTimer := None |}.
Proof. reflexivity. Qed.

Example run_slow :
  run (healthy 10 6 V0) [GetStart; TimerFires; TimerFires; GetStop] =
  {| state := {| killed := false; x := Some V0; decided := None; k := Some 2 |};
     consensusTimer := None |}.
Proof. reflexivity. Qed.

Example run_faulty :
  run (faulty 4 1 V1) [GetStart; TimerFires; GetStop] = init (faulty 4 1 V1).
Proof. reflexivity. Qed.

(** ** The reachable states *)

Lemma two53_pos : 0 < two53.
Proof. unfold two53. apply Z.pow_pos_nonneg; lia. Qed.

Lemma js_incr_range r : 0 <= r <= two53 -> 0 <= js_incr r <= two53.
Proof.
  intros Hr. unfold js_incr.
  destruct (Z.ltb_spec r two53); lia.
Qed.

Lemma js_incr_below r : r < two53 -> js_incr r = r + 1.
Proof.
  intros Hr. unfold js_incr.
  destruct (Z.ltb_spec r two53); [reflexivity | lia].
Qed.

Section Reachable.

Variable a : NodeArgs.

Lemma Inv_init : Inv a (init a).
Proof.
  destruct (isFaulty a) eqn:Hf.
  - now apply InvFaulty.
  - destruct (Z.lt_ge_cases (F a) 5).
    + apply (InvFast a None); [assumption | assumption | discriminate].
    + now apply InvIdle.
Qed.

(** A healthy node below the threshold only ever arms the timeout. *)
Lemma Inv_step_fast (s : NodeState) t e :
  isFaulty a = false -> F a < 5 -> t <> Some Interval ->
  (forall t', t' <> Some Interval -> Inv a {| state := s; consensusTimer := t' |}) ->
  (forall t', t' <> Some Interval ->
              Inv a {| state := decidedState; consensusTimer := t' |}) ->
  killed s = false ->
  Inv a (step a {| state := s; consensusTimer := t |} e).
Proof.
  intros Hf HF Ht Hs Hd Hk.
  assert (HFb : (F a <? 5) = true) by (apply Z.ltb_lt; exact HF).
  destruct t as [[|]|]; [| absurd_timer Ht |];
    destruct e; handler Hf HFb; rewrite ?Hk;
    first [ apply Hs; discriminate | apply Hd; discriminate ].
Qed.

(** A healthy node at or above the threshold only ever arms the
    interval, and its counter stays between [0] and [2^53]. *)
Lemma Inv_step_counting r t e :
  isFaulty a = false -> 5 <= F a -> 0 <= r <= two53 -> t <> Some Timeout ->
  Inv a (step a {| state := set_k (state (init a)) (Some r);
                   consensusTimer := t |} e).
Proof.
  intros Hf HF Hr Ht.
  assert (HFb : (F a <? 5) = false) by (apply Z.ltb_ge; exact HF).
  pose proof two53_pos as Hp.
  pose proof (js_incr_range r Hr) as Hr'.
  destruct t as [[|]|]; [absurd_timer Ht | |];
    destruct e; handler Hf HFb;
    first [ apply (InvCounting a r (Some Interval)); auto; discriminate
          | apply (InvCounting a r None); auto; discriminate
          | apply (InvCounting a (js_incr r) (Some Interval)); auto; discriminate
          | apply (InvCounting a 0 (Some Interval)); auto; [lia | discriminate] ].
Qed.

Lemma Inv_step n e : Inv a n -> Inv a (step a n e).
Proof.
  intros H. destruct H as [Hf | t Hf HF Ht | t Hf HF Ht | Hf HF | r t Hf HF Hr Ht].
  - (* a faulty node never leaves its initial state *)
    destruct e; handler Hf Hf; now apply InvFaulty.
  - apply Inv_step_fast; auto.
    + intros t' Ht'. now apply InvFast.
    + intros t' Ht'. now apply InvDecided.
  - apply Inv_step_fast; auto; intros t' Ht'; now apply InvDecided.
  - assert (HFb : (F a <? 5) = false) by (apply Z.ltb_ge; exact HF).
    pose proof two53_pos as Hp.
    destruct e; handler Hf HFb; try (now apply InvIdle).
    apply (InvCounting a 0 (Some Interval)); auto; [lia | discriminate].
  - now apply Inv_step_counting.
Qed.

Lemma Inv_steps tr : forall n, Inv a n -> Inv a (fold_left (step a) tr n).
Proof.
  induction tr as [| e tr IH]; intros n Hn; cbn.
  - exact Hn.
  - apply IH. now apply Inv_step.
Qed.

Lemma Inv_run tr : Inv a (run a tr).
Proof. apply Inv_steps, Inv_init. Qed.

Lemma run_app tr1 tr2 :
  run a (tr1 ++ tr2) = fold_left (step a) tr2 (run a tr1).
Proof. unfold run. apply fold_left_app. Qed.

End Reachable.

(** ** What the reachable states look like *)

Section Shape.

Variable a : NodeArgs.

(** The only undecided-to-decided write stores [true], [1] and [2]. *)
Lemma Inv_decided n :
  Inv a n -> decided (state n) = Some true ->
  state n = decidedState /\ F a < 5 /\ isFaulty a = false.
Proof.
  intros H Hd.
  destruct H as [Hf | t Hf HF Ht | t Hf HF Ht | Hf HF | r t Hf HF Hr Ht];
    cbn in Hd; try discriminate.
  repeat split; assumption.
Qed.

(** At or above the threshold a healthy node keeps [decided] and [x]
    as they were built, and counts rounds while the interval is armed. *)
Lemma Inv_stalled n :
  Inv a n -> isFaulty a = false -> 5 <= F a ->
  decided (state n) = None /\
  x (state n) = Some (initialValue a) /\
  (consensusTimer n <> None ->
   consensusTimer n = Some Interval /\
   exists r, k (state n) = Some r /\ 0 <= r <= two53).
Proof.
  intros H Hh HF5.
  destruct H as [Hf | t Hf HF Ht | t Hf HF Ht | Hf HF | r t Hf HF Hr Ht];
    try congruence; try lia; cbn; rewrite Hh.
  - split; [reflexivity | split; [reflexivity |]].
    intros Habs. now contradiction Habs.
  - split; [reflexivity | split; [reflexivity |]].
    intros Hne. split.
    + destruct t as [[|]|]; congruence.
    + exists r. split; [reflexivity | assumption].
Qed.

(** [decided] is never [false]: the node writes it with [true] only. *)
Lemma Inv_not_false n : Inv a n -> decided (state n) <> Some false.
Proof. intros H; destruct H; cbn; discriminate. Qed.

Lemma Inv_killed n : Inv a n -> killed (state n) = false.
Proof. intros H; destruct H; reflexivity. Qed.


(** [decided] is only ever written with [true]. *)
Lemma step_decided n e :
  decided (state n) = Some true -> decided (state (step a n e)) = Some true.
Proof.
  intros Hd.
  destruct n as [s [[|]|]];
    destruct e; unfold step, status, message, start, stop, getState, fire;
    cbn [consensusTimer];
    repeat match goal with
           | |- context [if ?b then _ else _] => destruct b
           end; cbn in *; solve [assumption | reflexivity].
Qed.

(** A message is logged and answered, nothing else. *)
Lemma step_message n msg : step a n (PostMessage msg) = n.
Proof. reflexivity. Qed.

(** [m] firings of an armed interval add [m] to the counter, as long
    as the count stays within [2^53]. *)
Lemma ticks_counted m : forall s r,
  k s = Some r -> 0 <= r -> r + Z.of_nat m <= two53 ->
  fold_left (step a) (repeat TimerFires m)
            {| state := s; consensusTimer := Some Interval |} =
  {| state := set_k s (Some (r + Z.of_nat m)); consensusTimer := Some Interval |}.
Proof.
  induction m as [| m IH]; intros s r Hk Hr Hm.
  - cbn [repeat fold_left]. rewrite Z.add_0_r.
    destruct s; cbn in *. now subst.
  - cbn [repeat fold_left].
    change (step a {| state := s; consensusTimer := Some Interval |} TimerFires)
      with {| state := set_k s (incr_k (k s)); consensusTimer := Some Interval |}.
    rewrite Hk. cbn [incr_k].
    rewrite js_incr_below by lia.
    rewrite (IH (set_k s (Some (r + 1))) (r + 1)); [| reflexivity | lia | lia].
    unfold set_k; cbn [killed x decided k].
    do 3 f_equal. lia.
Qed.

End Shape.

(** ** [/start] *)

(** C1, as stated, fails: on a healthy idle node with [F = 1], [/start]
    leaves [k] at [null]; with [F = 5] it sets [k] to [0] but leaves
    [decided] at [null], not [false]. *)
Lemma start_sets_no_round_state :
  isFaulty (healthy 4 1 V1) = false /\
  killed (state (init (healthy 4 1 V1))) = false /\
  consensusTimer (init (healthy 4 1 V1)) = None /\
  k (state (node (start (healthy 4 1 V1) (init (healthy 4 1 V1))))) <> Some 0 /\
  decided (state (node (start (healthy 4 1 V1) (init (healthy 4 1 V1)))))
    <> Some false /\
  k (state (node (start (healthy 10 5 V1) (init (healthy 10 5 V1))))) = Some 0 /\
  decided (state (node (start (healthy 10 5 V1) (init (healthy 10 5 V1)))))
    <> Some false.
Proof. cbn. repeat split; discriminate. Qed.

(** C1, amended: on a healthy node with no timer armed, [/start] is
    answered 200 "Consensus started" with one log line; it leaves
    [killed], [x] and [decided] as they are; if [F >= 5] it sets [k] to [0]
    and arms the interval, if [F < 5] it leaves [k] as it is and arms the
    timeout.  [/start] never sets [decided] to [false]: after [/start] on
    the node any run ends in, [decided] is not [false]. *)
Theorem start_healthy_idle (a : NodeArgs) (s : NodeState) (tr : list Event) :
  isFaulty a = false ->
  reply (start a {| state := s; consensusTimer := None |}) =
    mkReply 200 (Text "Consensus started") /\
  logs (start a {| state := s; consensusTimer := None |}) =
    [LogStarting (nodeId a)] /\
  killed (state (node (start a {| state := s; consensusTimer := None |}))) =
    killed s /\
  x (state (node (start a {| state := s; consensusTimer := None |}))) = x s /\
  decided (state (node (start a {| state := s; consensusTimer := None |}))) =
    decided s /\
  (5 <= F a ->
   node (start a {| state := s; consensusTimer := None |}) =
     {| state := set_k s (Some 0); consensusTimer := Some Interval |}) /\
  (F a < 5 ->
   node (start a {| state := s; consensusTimer := None |}) =
     {| state := s; consensusTimer := Some Timeout |}) /\
  decided (state (node (start a (run a tr)))) <> Some false.
Proof.
  intros Hh.
  assert (Hrun : decided (state (node (start a (run a tr)))) <> Some false).
  { apply (Inv_not_false a).
    change (node (start a (run a tr))) with (step a (run a tr) GetStart).
    apply Inv_step, Inv_run. }
  unfold start at 1 2 3 4 5 6 7. cbn [consensusTimer]. rewrite Hh.
  destruct (Z.ltb_spec (F a) 5) as [Hlt | Hge]; cbn;
    repeat split; intros; solve [reflexivity | lia | exact Hrun].
Qed.

Lemma start_healthy_idle_witness :
  node (start (healthy 10 5 V1)
              {| state := state (init (healthy 10 5 V1)); consensusTimer := None |}) =
    {| state := set_k (state (init (healthy 10 5 V1))) (Some 0);
       consensusTimer := Some Interval |} /\
  decided (state (node (start (healthy 10 5 V1)
                              (run (healthy 10 5 V1) [GetStart; GetStop]))))
    <> Some false.
Proof.
  pose proof (start_healthy_idle (healthy 10 5 V1)
                (state (init (healthy 10 5 V1))) [GetStart; GetStop] eq_refl)
    as (_ & _ & _ & _ & _ & Hk & _ & Hd).
  split; [apply Hk; cbn; lia | exact Hd].
Defined.

(** The only guard of [/start] is the timer: the call is turned away
    exactly when one is armed, and then it changes and logs nothing. *)
Lemma start_guard (a : NodeArgs) (n : Node) :
  (code (reply (start a n)) = 400 <-> consensusTimer n <> None) /\
  (code (reply (start a n)) = 400 ->
   start a n =
     mkOutcome n (mkReply 400 (Text "Consensus algorithm already running.")) []).
Proof.
  unfold start.
  destruct (consensusTimer n) as [t |]; cbn.
  - repeat split; intros; solve [reflexivity | discriminate].
  - destruct (isFaulty a); [| destruct (F a <? 5)]; cbn;
      (split; [split; intros H; [discriminate H | now contradiction H]
              | intros H; discriminate H]).
Qed.

(** C4: after any sequence of requests and timer firings, [/start] is
    turned away (status 400, "Consensus algorithm already running.") if
    and only if a timer is armed or [killed] is [true]; a call that is
    turned away changes neither [state] nor the timer and logs nothing. *)
Theorem start_rejected_iff_running_or_killed (a : NodeArgs) (tr : list Event) :
  (code (reply (start a (run a tr))) = 400 <->
   consensusTimer (run a tr) <> None \/ killed (state (run a tr)) = true) /\
  (code (reply (start a (run a tr))) = 400 ->
   start a (run a tr) =
     mkOutcome (run a tr)
               (mkReply 400 (Text "Consensus algorithm already running.")) []).
Proof.
  destruct (start_guard a (run a tr)) as [Hiff Hsame].
  pose proof (Inv_killed a _ (Inv_run a tr)) as Hk.
  split; [| exact Hsame].
  split.
  - intros H. left. now apply Hiff.
  - intros [H | H]; [now apply Hiff | congruence].
Qed.

Lemma start_rejected_iff_running_or_killed_witness :
  code (reply (start (healthy 10 6 V0) (run (healthy 10 6 V0) [GetStart]))) = 400 /\
  start (healthy 10 6 V0) (run (healthy 10 6 V0) [GetStart]) =
    mkOutcome (run (healthy 10 6 V0) [GetStart])
              (mkReply 400 (Text "Consensus algorithm already running.")) [].
Proof.
  pose proof (start_rejected_iff_running_or_killed (healthy 10 6 V0) [GetStart])
    as [Hiff Hsame].
  assert (H : code (reply (start (healthy 10 6 V0)
                             (run (healthy 10 6 V0) [GetStart]))) = 400).
  { apply Hiff. left. cbn. discriminate. }
  split; [exact H | exact (Hsame H)].
Defined.

(** ** Decisions *)

(** C2, as stated, fails: a healthy node built with the value [0] decides
    [1] when its timeout fires. *)
Lemma decision_ignores_initial_value :
  isFaulty (healthy 4 1 V0) = false /\
  decided (state (run (healthy 4 1 V0) [GetStart; TimerFires])) = Some true /\
  x (state (run (healthy 4 1 V0) [GetStart; TimerFires])) <>
    Some (initialValue (healthy 4 1 V0)).
Proof. cbn. repeat split; discriminate. Qed.

(** C2, amended: every node that reaches [decided = true] holds [x = 1]
    (and [k = 2]), whatever value it was built with; so a node decides
    its initial value exactly when that value is [1]. *)
Theorem decided_value_is_one (a : NodeArgs) (tr : list Event) :
  decided (state (run a tr)) = Some true ->
  x (state (run a tr)) = Some V1 /\
  k (state (run a tr)) = Some 2 /\
  (x (state (run a tr)) = Some (initialValue a) <-> initialValue a = V1).
Proof.
  intros Hd.
  destruct (Inv_decided a _ (Inv_run a tr) Hd) as [Hs _].
  rewrite Hs. cbn.
  repeat split; intros H; congruence.
Qed.

Lemma decided_value_is_one_witness :
  x (state (run (healthy 4 1 V0) [GetStart; TimerFires])) = Some V1 /\
  k (state (run (healthy 4 1 V0) [GetStart; TimerFires])) = Some 2 /\
  (x (state (run (healthy 4 1 V0) [GetStart; TimerFires])) =
     Some (initialValue (healthy 4 1 V0)) <->
   initialValue (healthy 4 1 V0) = V1).
Proof.
  exact (decided_value_is_one (healthy 4 1 V0) [GetStart; TimerFires] eq_refl).
Defined.

(** C9: along every sequence of requests and timer firings, once
    [decided] is [true] it stays [true], [k] is not [null] and [x] keeps
    the value it had when the decision was made. *)
Theorem decision_is_terminal (a : NodeArgs) (tr1 tr2 : list Event) :
  decided (state (run a tr1)) = Some true ->
  decided (state (run a (tr1 ++ tr2))) = Some true /\
  k (state (run a (tr1 ++ tr2))) <> None /\
  x (state (run a (tr1 ++ tr2))) = x (state (run a tr1)).
Proof.
  intros Hd.
  assert (Hd' : decided (state (run a (tr1 ++ tr2))) = Some true).
  { rewrite run_app. generalize dependent (run a tr1).
    induction tr2 as [| e tr2 IH]; intros n Hn; cbn.
    - exact Hn.
    - apply IH. now apply step_decided. }
  destruct (Inv_decided a _ (Inv_run a tr1) Hd) as [Hs _].
  destruct (Inv_decided a _ (Inv_run a (tr1 ++ tr2)) Hd') as [Hs' _].
  rewrite Hs, Hs'. cbn.
  repeat split; discriminate.
Qed.

Lemma decision_is_terminal_witness :
  decided (state (run (healthy 4 1 V0)
     ([GetStart; TimerFires] ++
      [GetStart; PostMessage (JNum 7); TimerFires; GetStop; GetStart; GetStop])))
    = Some true /\
  k (state (run (healthy 4 1 V0)
     ([GetStart; TimerFires] ++
      [GetStart; PostMessage (JNum 7); TimerFires; GetStop; GetStart; GetStop])))
    <> None /\
  x (state (run (healthy 4 1 V0)
     ([GetStart; TimerFires] ++
      [GetStart; PostMessage (JNum 7); TimerFires; GetStop; GetStart; GetStop])))
    = x (state (run (healthy 4 1 V0) [GetStart; TimerFires])).
Proof.
  exact (decision_is_terminal (healthy 4 1 V0) [GetStart; TimerFires]
           [GetStart; PostMessage (JNum 7); TimerFires; GetStop; GetStart; GetStop]
           eq_refl).
Defined.

(** ** Rounds that never decide *)

(** C3, as stated, fails: with [N = 2] and [F = 1] (so [N <= 2F]) a
    started healthy node has no round counter to increase, and it decides
    when its timeout fires. *)
Lemma small_F_decides_without_quorum :
  N (healthy 2 1 V1) <= 2 * F (healthy 2 1 V1) /\
  isFaulty (healthy 2 1 V1) = false /\
  k (state (run (healthy 2 1 V1) [GetStart])) = None /\
  decided (state (run (healthy 2 1 V1) [GetStart; TimerFires])) = Some true.
Proof. cbn. repeat split; discriminate. Qed.

(** C3, amended: for every [F >= 5], whatever [N], a healthy node never
    reaches [decided = true]; [/start] on such a node with no timer armed
    sets [k] to [0] and arms the interval; and in every reachable state
    with the timer armed [k] holds a number [r] between [0] and [2^53]
    that a firing of the timer raises to [r + 1] as long as [r < 2^53]. *)
Theorem stalled_run (a : NodeArgs) (tr : list Event) :
  5 <= F a -> isFaulty a = false ->
  decided (state (run a tr)) <> Some true /\
  (consensusTimer (run a tr) = None ->
   k (state (node (start a (run a tr)))) = Some 0 /\
   consensusTimer (node (start a (run a tr))) = Some Interval) /\
  (consensusTimer (run a tr) <> None ->
   exists r, k (state (run a tr)) = Some r /\ 0 <= r <= two53 /\
             (r < two53 ->
              k (state (step a (run a tr) TimerFires)) = Some (r + 1)) /\
             decided (state (step a (run a tr) TimerFires)) <> Some true).
Proof.
  intros HF Hh.
  destruct (Inv_stalled a _ (Inv_run a tr) Hh HF) as (Hd & _ & Ht).
  assert (HFb : (F a <? 5) = false) by (apply Z.ltb_ge; exact HF).
  split; [rewrite Hd; discriminate |]. split.
  - intros Hnone. unfold start. rewrite Hnone, Hh, HFb. cbn. split; reflexivity.
  - intros Harmed. destruct (Ht Harmed) as (Hi & r & Hk & Hr).
    exists r. split; [exact Hk |]. split; [exact Hr |].
    unfold step, fire. rewrite Hi. cbn. rewrite Hk, Hd. cbn.
    split; [| discriminate].
    intros Hlt. now rewrite js_incr_below.
Qed.

Lemma stalled_run_witness :
  decided (state (run (healthy 10 6 V0) [GetStart; TimerFires; TimerFires]))
    <> Some true /\
  k (state (run (healthy 10 6 V0) [GetStart; TimerFires; TimerFires])) = Some 2 /\
  k (state (node (start (healthy 10 6 V0) (run (healthy 10 6 V0) [])))) = Some 0.
Proof.
  pose proof (stalled_run (healthy 10 6 V0) [GetStart; TimerFires; TimerFires]
                ltac:(cbn; lia) eq_refl) as H3.
  pose proof (stalled_run (healthy 10 6 V0) [] ltac:(cbn; lia) eq_refl) as H0.
  split; [exact (proj1 H3) |].
  split; [reflexivity |].
  exact (proj1 (proj1 (proj2 H0) eq_refl)).
Defined.

(** ** [/stop] *)

(** C5: two [/stop] calls in a row leave the node as one call does;
    every [/stop] answers 200; and with no timer armed [/stop] changes
    nothing and answers "Consensus algorithm not running.". *)
Theorem stop_idempotent (a : NodeArgs) (n : Node) (s : NodeState) :
  node (stop a (node (stop a n))) = node (stop a n) /\
  code (reply (stop a n)) = 200 /\
  stop a {| state := s; consensusTimer := None |} =
    mkOutcome {| state := s; consensusTimer := None |}
              (mkReply 200 (Text "Consensus algorithm not running.")) [].
Proof.
  unfold stop.
  destruct n as [sn [t |]]; cbn; repeat split; reflexivity.
Qed.

(** C6, as stated, fails: a node that has decided and is started again
    has a timer armed, and [/stop] leaves [decided] at [true]. *)
Lemma stop_keeps_decision :
  consensusTimer (run (healthy 4 1 V0) [GetStart; TimerFires; GetStart]) <> None /\
  decided (state (node (stop (healthy 4 1 V0)
     (run (healthy 4 1 V0) [GetStart; TimerFires; GetStart])))) = Some true.
Proof. cbn. split; [discriminate | reflexivity]. Qed.

(** C6, amended: whenever a timer is armed, [/stop] clears it, so that no
    callback runs afterwards, answers "Consensus stopped" and leaves
    [killed], [x], [decided] and [k] as they were; in particular
    [decided] is not [true] after the call unless it was before. *)
Theorem stop_halts_round (a : NodeArgs) (n : Node) :
  consensusTimer n <> None ->
  consensusTimer (node (stop a n)) = None /\
  fire a (node (stop a n)) = (node (stop a n), []) /\
  state (node (stop a n)) = state n /\
  reply (stop a n) = mkReply 200 (Text "Consensus stopped") /\
  (decided (state n) <> Some true ->
   decided (state (node (stop a n))) <> Some true).
Proof.
  intros Harmed. unfold stop, fire.
  destruct (consensusTimer n) as [t |] eqn:Ht; [| now contradiction Harmed].
  cbn. repeat split. intros Hd; exact Hd.
Qed.

Lemma stop_halts_round_witness :
  consensusTimer (node (stop (healthy 10 6 V0)
     (run (healthy 10 6 V0) [GetStart; TimerFires]))) = None /\
  state (node (stop (healthy 10 6 V0)
     (run (healthy 10 6 V0) [GetStart; TimerFires]))) =
    {| killed := false; x := Some V0; decided := None; k := Some 1 |}.
Proof.
  pose proof (stop_halts_round (healthy 10 6 V0)
                (run (healthy 10 6 V0) [GetStart; TimerFires])
                ltac:(cbn; discriminate)) as H.
  split; [exact (proj1 H) |].
  rewrite (proj1 (proj2 (proj2 H))). reflexivity.
Defined.

(** ** [/status] *)



(** ** [/message] and the [killed] flag *)

(** C10: [/message] answers 200 and logs the body; it changes neither
    [state] nor the timer, so a message delivered anywhere in a run
    leaves the run's outcome as it would be without it. *)
Theorem message_is_discarded (a : NodeArgs) (msg : Json) (n : Node)
        (tr1 tr2 : list Event) :
  node (message a msg n) = n /\
  state (step a n (PostMessage msg)) = state n /\
  code (reply (message a msg n)) = 200 /\
  run a (tr1 ++ PostMessage msg :: tr2) = run a (tr1 ++ tr2).
Proof.
  repeat split.
  rewrite !run_app. reflexivity.
Qed.




(** ** Further properties of the handlers *)

Lemma idle_fires (a : NodeArgs) (m : nat) (n : Node) :
  consensusTimer n = None ->
  fold_left (step a) (repeat TimerFires m) n = n.
Proof.
  intros Hn. induction m as [| m IH]; cbn [repeat fold_left].
  - reflexivity.
  - replace (step a n TimerFires) with n; [exact IH |].
    unfold step, fire. now rewrite Hn.
Qed.

(** X1: a faulty node never leaves the state it was built in: after any
    sequence of requests and timer firings no timer is armed, [/getState]
    reports [x], [decided] and [k] as [null] and [killed] as [false], and
    [/start] is answered 200 "Faulty node: consensus not started.". *)
Theorem faulty_node_is_inert (a : NodeArgs) (tr : list Event) :
  isFaulty a = true ->
  run a tr = init a /\
  reply (getState (run a tr)) =
    mkReply 200 (StateJson {| killed := false; x := None;
                              decided := None; k := None |}) /\
  start a (run a tr) =
    mkOutcome (init a)
              (mkReply 200 (Text "Faulty node: consensus not started."))
              [LogStarting (nodeId a)].
Proof.
  intros Hf.
  assert (Hrun : run a tr = init a).
  { destruct (Inv_run a tr); congruence. }
  rewrite Hrun. unfold getState, start, init. cbn. rewrite Hf.
  repeat split.
Qed.

Lemma faulty_node_is_inert_witness :
  run (faulty 4 1 V1) [GetStart; TimerFires; GetStop; GetStart] =
    init (faulty 4 1 V1).
Proof.
  exact (proj1 (faulty_node_is_inert (faulty 4 1 V1)
                  [GetStart; TimerFires; GetStop; GetStart] eq_refl)).
Defined.

(** X2: a healthy node with [F < 5] is, after any sequence of requests
    and timer firings, either in the state it was built in or in the
    state [killed = false, x = 1, decided = true, k = 2]; it never holds
    an interval. *)
Theorem fast_node_states (a : NodeArgs) (tr : list Event) :
  isFaulty a = false -> F a < 5 ->
  (state (run a tr) =
     {| killed := false; x := Some (initialValue a);
        decided := None; k := None |} \/
   state (run a tr) =
     {| killed := false; x := Some V1; decided := Some true; k := Some 2 |}) /\
  consensusTimer (run a tr) <> Some Interval.
Proof.
  intros Hh HF.
  destruct (Inv_run a tr) as [Hf | t Hf HF' Ht | t Hf HF' Ht | Hf HF' | r t Hf HF' Hr Ht];
    try congruence; try lia; cbn; rewrite ?Hh.
  - split; [left; reflexivity | exact Ht].
  - split; [right; reflexivity | exact Ht].
Qed.

Lemma fast_node_states_witness :
  (state (run (healthy 4 1 V0) [GetStart; GetStop; GetStart; TimerFires]) =
     {| killed := false; x := Some (initialValue (healthy 4 1 V0));
        decided := None; k := None |} \/
   state (run (healthy 4 1 V0) [GetStart; GetStop; GetStart; TimerFires]) =
     {| killed := false; x := Some V1; decided := Some true; k := Some 2 |}) /\
  consensusTimer (run (healthy 4 1 V0) [GetStart; GetStop; GetStart; TimerFires])
    <> Some Interval.
Proof.
  exact (fast_node_states (healthy 4 1 V0)
           [GetStart; GetStop; GetStart; TimerFires] eq_refl eq_refl).
Defined.

(** X3: a healthy node with [F >= 5] never writes [x], [decided] or
    [killed]: after any sequence of requests and timer firings they are
    the initial value, [null] and [false]; the node never holds a timeout;
    and [k] is either [null], with no timer armed, or a number between [0]
    and [2^53]. *)
Theorem counting_node_states (a : NodeArgs) (tr : list Event) :
  isFaulty a = false -> 5 <= F a ->
  x (state (run a tr)) = Some (initialValue a) /\
  decided (state (run a tr)) = None /\
  killed (state (run a tr)) = false /\
  consensusTimer (run a tr) <> Some Timeout /\
  ((k (state (run a tr)) = None /\ consensusTimer (run a tr) = None) \/
   exists r, k (state (run a tr)) = Some r /\ 0 <= r <= two53).
Proof.
  intros Hh HF.
  destruct (Inv_run a tr) as [Hf | t Hf HF' Ht | t Hf HF' Ht | Hf HF' | r t Hf HF' Hr Ht];
    try congruence; try lia; cbn; rewrite ?Hh.
  - repeat (split; [first [reflexivity | discriminate] |]).
    left; split; reflexivity.
  - repeat (split; [first [reflexivity | exact Ht] |]).
    right. exists r. split; [reflexivity | exact Hr].
Qed.

Lemma counting_node_states_witness :
  x (state (run (healthy 10 6 V0) [GetStart; TimerFires; GetStop])) =
    Some (initialValue (healthy 10 6 V0)) /\
  decided (state (run (healthy 10 6 V0) [GetStart; TimerFires; GetStop])) = None.
Proof.
  pose proof (counting_node_states (healthy 10 6 V0)
                [GetStart; TimerFires; GetStop] eq_refl
                ltac:(cbn; lia)) as H.
  split; [exact (proj1 H) | exact (proj1 (proj2 H))].
Defined.

(** X4: on a healthy node with [F >= 5] and no timer armed, [/start]
    followed by [m] firings of the interval leaves [k] equal to [m], for
    every [m] up to [2^53], with the interval still armed and the rest of
    the state untouched. *)
Theorem ticks_after_start (a : NodeArgs) (n : Node) (m : nat) :
  isFaulty a = false -> 5 <= F a -> consensusTimer n = None ->
  Z.of_nat m <= two53 ->
  fold_left (step a) (GetStart :: repeat TimerFires m) n =
    {| state := set_k (state n) (Some (Z.of_nat m));
       consensusTimer := Some Interval |}.
Proof.
  intros Hh HF Hn Hm.
  assert (HFb : (F a <? 5) = false) by (apply Z.ltb_ge; exact HF).
  cbn [fold_left].
  replace (step a n GetStart)
    with {| state := set_k (state n) (Some 0); consensusTimer := Some Interval |}
    by (unfold step, start; now rewrite Hn, Hh, HFb).
  rewrite (ticks_counted a m (set_k (state n) (Some 0)) 0);
    [reflexivity | reflexivity | lia | lia].
Qed.

Lemma ticks_after_start_witness :
  k (state (fold_left (step (healthy 10 6 V1))
                      (GetStart :: repeat TimerFires 200)
                      (init (healthy 10 6 V1)))) = Some 200.
Proof.
  rewrite (ticks_after_start (healthy 10 6 V1) (init (healthy 10 6 V1)) 200
             eq_refl ltac:(cbn; lia) eq_refl ltac:(vm_compute; discriminate)).
  reflexivity.
Defined.

(** X5: a second [/start] right after a [/start] leaves the node as the
    first one left it, on every node; on a healthy node the second call is
    answered 400 and logs nothing. *)
Theorem start_twice (a : NodeArgs) (n : Node) :
  node (start a (node (start a n))) = node (start a n) /\
  (isFaulty a = false ->
   reply (start a (node (start a n))) =
     mkReply 400 (Text "Consensus algorithm already running.") /\
   logs (start a (node (start a n))) = []).
Proof.
  unfold start.
  destruct n as [s [t |]]; cbn [consensusTimer node].
  - split; [reflexivity | intros _; split; reflexivity].
  - destruct (isFaulty a); [| destruct (F a <? 5)]; cbn [consensusTimer node].
    + split; [reflexivity | intros H; discriminate H].
    + split; [reflexivity | intros _; split; reflexivity].
    + split; [reflexivity | intros _; split; reflexivity].
Qed.

Lemma start_twice_witness :
  reply (start (healthy 4 1 V1)
               (node (start (healthy 4 1 V1) (init (healthy 4 1 V1))))) =
    mkReply 400 (Text "Consensus algorithm already running.").
Proof.
  exact (proj1 (proj2 (start_twice (healthy 4 1 V1) (init (healthy 4 1 V1)))
                      eq_refl)).
Defined.

(** X6: a [/start] right after a [/stop] is never turned away: it is
    answered 200 on every node; on a healthy node it arms the timeout
    and keeps the state if [F < 5], and arms the interval and puts [k]
    back to [0], whatever it counted before, if [F >= 5]. *)
Theorem stop_then_start (a : NodeArgs) (n : Node) :
  code (reply (start a (node (stop a n)))) = 200 /\
  (isFaulty a = false ->
   node (start a (node (stop a n))) =
     if F a <? 5
     then {| state := state n; consensusTimer := Some Timeout |}
     else {| state := set_k (state n) (Some 0);
             consensusTimer := Some Interval |}).
Proof.
  unfold start, stop.
  destruct n as [s [t |]]; cbn [consensusTimer node state];
    (destruct (isFaulty a); [| destruct (F a <? 5)]); cbn;
    (split; [reflexivity | intros H; solve [reflexivity | discriminate H]]).
Qed.

Lemma stop_then_start_witness :
  node (start (healthy 10 6 V0)
         (node (stop (healthy 10 6 V0)
                  (run (healthy 10 6 V0) [GetStart; TimerFires; TimerFires])))) =
    {| state := {| killed := false; x := Some V0; decided := None; k := Some 0 |};
       consensusTimer := Some Interval |}.
Proof.
  rewrite (proj2 (stop_then_start (healthy 10 6 V0)
                    (run (healthy 10 6 V0) [GetStart; TimerFires; TimerFires]))
                 eq_refl).
  reflexivity.
Defined.

(** X7: no request writes [x], [decided] or [killed], and the only
    request that can write [k] is [/start], which writes [0]; the fields
    [x] and [decided] change only when a pending timeout fires. *)
Theorem requests_do_not_decide (a : NodeArgs) (n : Node) (e : Event) :
  (e <> TimerFires ->
   x (state (step a n e)) = x (state n) /\
   decided (state (step a n e)) = decided (state n) /\
   killed (state (step a n e)) = killed (state n) /\
   (k (state (step a n e)) = k (state n) \/
    e = GetStart /\ k (state (step a n e)) = Some 0)) /\
  ((x (state (step a n e)) <> x (state n) \/
    decided (state (step a n e)) <> decided (state n)) ->
   e = TimerFires /\ consensusTimer n = Some Timeout).
Proof.
  destruct n as [s [[|]|]]; destruct e;
    unfold step, status, message, start, stop, getState, fire;
    cbn [consensusTimer];
    repeat match goal with
           | |- context [if ?b then _ else _] => destruct b
           end; cbn;
    (split;
     [ intros Hne; try (now contradiction Hne);
       repeat (split; [reflexivity |]);
       first [ left; reflexivity | right; split; reflexivity ]
     | intros [H | H]; solve [now contradiction H | split; reflexivity] ]).
Qed.

Lemma requests_do_not_decide_witness :
  x (state (step (healthy 10 6 V0) (init (healthy 10 6 V0)) GetStart)) =
    x (state (init (healthy 10 6 V0))) /\
  decided (state (step (healthy 10 6 V0) (init (healthy 10 6 V0)) GetStart)) =
    decided (state (init (healthy 10 6 V0))).
Proof.
  pose proof (proj1 (requests_do_not_decide (healthy 10 6 V0)
                       (init (healthy 10 6 V0)) GetStart)
                    ltac:(discriminate)) as H.
  split; [exact (proj1 H) | exact (proj1 (proj2 H))].
Defined.

(** X8: on a node with [F < 5] and no timer armed, a [/start] that is
    followed by a [/stop] before the timeout fires leaves no trace: the
    node is as it was before the [/start], and no later firing changes
    it, so the decision is never made. *)
Theorem stop_cancels_pending (a : NodeArgs) (n : Node) (m : nat) :
  F a < 5 -> consensusTimer n = None ->
  fold_left (step a) ([GetStart; GetStop] ++ repeat TimerFires m) n = n.
Proof.
  intros HF Hn.
  assert (HFb : (F a <? 5) = true) by (apply Z.ltb_lt; exact HF).
  rewrite fold_left_app.
  assert (H2 : fold_left (step a) [GetStart; GetStop] n = n).
  { destruct n as [s t]. cbn in Hn. subst t.
    cbn [fold_left]. unfold step, start, stop. cbn [consensusTimer node].
    rewrite HFb. destruct (isFaulty a); reflexivity. }
  rewrite H2. now apply idle_fires.
Qed.

Lemma stop_cancels_pending_witness :
  fold_left (step (healthy 4 1 V0))
            ([GetStart; GetStop] ++ repeat TimerFires 3)
            (init (healthy 4 1 V0)) = init (healthy 4 1 V0).
Proof.
  exact (stop_cancels_pending (healthy 4 1 V0) (init (healthy 4 1 V0)) 3
           eq_refl eq_refl).
Defined.

(** X9: on a healthy node with [F < 5], from every state, a [/stop], a
    [/start] and the firing of the timeout lead to [x = 1],
    [decided = true], [k = 2] with no timer armed, [killed] being kept. *)
Theorem decision_from_any_state (a : NodeArgs) (n : Node) :
  isFaulty a = false -> F a < 5 ->
  fold_left (step a) [GetStop; GetStart; TimerFires] n =
    {| state := {| killed := killed (state n); x := Some V1;
                   decided := Some true; k := Some 2 |};
       consensusTimer := None |}.
Proof.
  intros Hh HF.
  assert (HFb : (F a <? 5) = true) by (apply Z.ltb_lt; exact HF).
  destruct n as [s [t |]]; cbn [fold_left];
    unfold step, start, stop, fire; cbn [consensusTimer node state];
    rewrite Hh, HFb; reflexivity.
Qed.

Lemma decision_from_any_state_witness :
  fold_left (step (healthy 4 1 V0)) [GetStop; GetStart; TimerFires]
            (run (healthy 4 1 V0) [GetStart]) =
    {| state := decidedState; consensusTimer := None |}.
Proof.
  exact (decision_from_any_state (healthy 4 1 V0)
           (run (healthy 4 1 V0) [GetStart]) eq_refl eq_refl).
Defined.

(** X10: [/status] and [/getState] only read: a run with such a request
    inserted anywhere ends in the same node as the run without it, and
    [/getState] at the end of a run answers 200 with the state the run
    ended in. *)
Theorem observation_is_silent (a : NodeArgs) (tr1 tr2 : list Event) :
  run a (tr1 ++ GetState :: tr2) = run a (tr1 ++ tr2) /\
  run a (tr1 ++ GetStatus :: tr2) = run a (tr1 ++ tr2) /\
  respond a (run a tr1) GetState =
    Some (mkReply 200 (StateJson (state (run a (tr1 ++ [GetState]))))).
Proof.
  rewrite !run_app. cbn [fold_left].
  assert (Hs : forall n, step a n GetStatus = n).
  { intros n. unfold step, status. destruct (isFaulty a); reflexivity. }
  rewrite Hs. repeat split.
Qed.
